(** * StripeHelper: a shallow embedding of the payment-method classifier

    The TypeScript class [StripeHelper] wraps three calls of the Stripe
    client ([charges.retrieve], [paymentIntents.retrieve] and
    [customers.search]) behind [isUSBankTransfer], [isPiUsBankTransfer] and
    [getCustomersByEmail].  The methods are embedded in a state-and-exception
    monad over an arbitrary, possibly stateful, client; every network call is
    recorded, with the answer it received, in a history.  The [console.log]
    lines of the source, all behind the [debug] flag, are left out: they
    read values and write to the console only.

    Module [Logged] has the same methods with the [debug] flag and the log
    lines, the constructor and the script of src/test-method.ts; module
    [Rev0] has the earlier revision of the class.  Both are related to the
    methods above at the end of the file. *)

From Stdlib Require Import Ascii String List Bool.
Import ListNotations.
Open Scope string_scope.
Open Scope list_scope.

(** ** JavaScript values of the fields the code inspects *)

(** A field typed [string] in the DTOs is, at run time, a string,
    [undefined] (the property is missing) or [null] (Stripe's JSON). *)
Inductive JsString : Type :=
| undefined
| null
| str (s : string).

(** JavaScript truthiness, as used by [!x] and [if (x)]. *)
Definition truthy (v : JsString) : bool :=
  match v with
  | str EmptyString => false
  | str _ => true
  | undefined | null => false
  end.

(** The strict equality [a === b]. *)
Definition strict_eq (a b : JsString) : bool :=
  match a, b with
  | undefined, undefined => true
  | null, null => true
  | str s, str t => String.eqb s t
  | _, _ => false
  end.

(** [s.startsWith(p)]. *)
Definition startsWith (s p : string) : bool := String.prefix p s.

(** ** The DTOs (the sparse types at the end of the source file) *)

Module PaymentMethodDetails.
Record t : Type := mk { type : JsString }.
End PaymentMethodDetails.

Module Charge.
(** [payment_intent] is not in the declared type; the code reads it off
    the record that [charges.retrieve] resolves to. *)
Record t : Type := mk {
    id : JsString;
    payment_intent : JsString;
    payment_method_details : option PaymentMethodDetails.t
  }.
End Charge.

Module ChargeList.
Record t : Type := mk { data : list Charge.t }.
End ChargeList.

Module PaymentIntent.
Record t : Type := mk {
    id : JsString;
    latest_charge : JsString;
    charges : option ChargeList.t
  }.
End PaymentIntent.

Module Customer.
Record t : Type := mk { id : JsString; email : JsString }.
End Customer.

Module SearchResult.
Record t : Type := mk { data : list Customer.t }.
End SearchResult.

(** ** The Stripe client *)

(** What a rejected promise or a [throw] carries: an [Error] object, as
    the Stripe client rejects with.  The [catch] blocks read its [message]
    for the log and nothing else. *)
Record Error : Type := mkError { message : string }.

(** The error of dereferencing [undefined] or [null]. *)
Definition TypeError : Error :=
  mkError "Cannot read properties of undefined".

(** An awaited call either resolves, to a record or (the client is typed
    [any]) to nothing, or rejects. *)
Inductive Response (T : Type) : Type :=
| Resolved (v : option T)
| Rejected (e : Error).
Arguments Resolved {T} v.
Arguments Rejected {T} e.

(** The client, with a state of its own of type [W]: the same call may be
    answered differently the second time. *)
Record Client (W : Type) : Type := mkClient {
  charges_retrieve : JsString -> W -> Response Charge.t * W;
  paymentIntents_retrieve : JsString -> W -> Response PaymentIntent.t * W;
  customers_search : string -> W -> Response SearchResult.t * W
}.
Arguments charges_retrieve {W} _ _ _.
Arguments paymentIntents_retrieve {W} _ _ _.
Arguments customers_search {W} _ _ _.

(** One network call and its answer. *)
Inductive Event : Type :=
| ChargesRetrieve (id : JsString) (r : Response Charge.t)
| PaymentIntentsRetrieve (id : JsString) (r : Response PaymentIntent.t)
| CustomersSearch (query : string) (r : Response SearchResult.t).

Definition rejected (ev : Event) : bool :=
  match ev with
  | ChargesRetrieve _ (Rejected _)
  | PaymentIntentsRetrieve _ (Rejected _)
  | CustomersSearch _ (Rejected _) => true
  | _ => false
  end.

(** ** The monad of the async methods *)

Inductive Outcome (A : Type) : Type :=
| Returned (a : A)
| Thrown (e : Error).
Arguments Returned {A} a.
Arguments Thrown {A} e.

(** State of the client and history of the calls made so far, oldest
    first. *)
Definition St (W : Type) : Type := (W * list Event)%type.

Definition M (W A : Type) : Type := St W -> Outcome A * St W.

Definition ret {W A} (a : A) : M W A := fun st => (Returned a, st).

Definition throw {W A} (e : Error) : M W A := fun st => (Thrown e, st).

Definition bind {W A B} (m : M W A) (k : A -> M W B) : M W B :=
  fun st =>
    match m st with
    | (Returned a, st') => k a st'
    | (Thrown e, st') => (Thrown e, st')
    end.

(** [try { body } catch (err) { handler }]. *)
Definition try_catch {W A} (body : M W A) (handler : Error -> M W A) : M W A :=
  fun st =>
    match body st with
    | (Returned a, st') => (Returned a, st')
    | (Thrown e, st') => handler e st'
    end.

(** [await call]: perform the call, record it, raise on rejection. *)
Definition await {W T} (call : W -> Response T * W)
    (ev : Response T -> Event) : M W (option T) :=
  fun '(w, h) =>
    let '(r, w') := call w in
    match r with
    | Resolved v => (Returned v, (w', h ++ [ev r]))
    | Rejected e => (Thrown e, (w', h ++ [ev r]))
    end.

(** Reading a property of a value that may be [undefined]. *)
Definition deref {W T} (v : option T) : M W T :=
  match v with
  | Some x => ret x
  | None => throw TypeError
  end.

Declare Scope stripe_scope.
Delimit Scope stripe_scope with stripe.
Notation "x <- m ;; k" := (bind m (fun x => k))
  (at level 61, m at next level, right associativity) : stripe_scope.
Open Scope stripe_scope.

(** ** The methods of [StripeHelper] *)

(** The final test shared by both classification methods:
    [if (!latestCharge || !latestCharge.payment_method_details) return false;
     return latestCharge.payment_method_details.type === "us_bank_account"]. *)
Definition classify (latestCharge : option Charge.t) : bool :=
  match latestCharge with
  | None => false
  | Some c =>
      match Charge.payment_method_details c with
      | None => false
      | Some d => strict_eq (PaymentMethodDetails.type d) (str "us_bank_account")
      end
  end.

(** [charges?.data.find(c => c.id === latest_charge)]. *)
Definition findLatest (charges : option ChargeList.t) (latest_charge : JsString)
    : option Charge.t :=
  match charges with
  | None => None
  | Some l => find (fun c => strict_eq (Charge.id c) latest_charge) (ChargeList.data l)
  end.

Section StripeHelper.
Variable W : Type.
Variable stripe : Client W.

Definition isUSBankTransfer (chargeId : string) : M W bool :=
    try_catch
      (let derivedPi := undefined in
       let derivedPi := if startsWith chargeId "pi_" then str chargeId else derivedPi in
       derivedPi <-
         (if startsWith chargeId "py_" then
            charge <- await (charges_retrieve stripe (str chargeId))
                            (ChargesRetrieve (str chargeId)) ;;
            charge <- deref charge ;;
            ret (if truthy (Charge.payment_intent charge)
                 then Charge.payment_intent charge else derivedPi)
          else ret derivedPi) ;;
       if negb (truthy derivedPi) then ret false else
       pi <- await (paymentIntents_retrieve stripe derivedPi)
                   (PaymentIntentsRetrieve derivedPi) ;;
       pi <- deref pi ;;
       if match PaymentIntent.charges pi with None => true | Some _ => false end
          && negb (truthy (PaymentIntent.latest_charge pi))
       then ret false else
       let latestCharge :=
         findLatest (PaymentIntent.charges pi) (PaymentIntent.latest_charge pi) in
       latestCharge <-
         (match latestCharge with
          | None => await (charges_retrieve stripe (PaymentIntent.latest_charge pi))
                          (ChargesRetrieve (PaymentIntent.latest_charge pi))
          | Some c => ret (Some c)
          end) ;;
       ret (classify latestCharge))
      (fun err => ret false).

Definition isPiUsBankTransfer (paymentIntent : PaymentIntent.t) : M W bool :=
    if negb (truthy (PaymentIntent.id paymentIntent))
       || negb (match PaymentIntent.id paymentIntent with
                | str s => startsWith s "pi_"
                | _ => false
                end)
    then ret false else
    match PaymentIntent.charges paymentIntent with
    | None => ret false
    | Some charges =>
        try_catch
          (let latestCharge :=
             find (fun c => strict_eq (Charge.id c)
                              (PaymentIntent.latest_charge paymentIntent))
                  (ChargeList.data charges) in
           ret (classify latestCharge))
          (fun err => ret false)
    end.

(** The query [`email:"${email}"`]; the quote is character 34. *)
Definition emailQuery (email : string) : string :=
    let quote := String (Ascii.ascii_of_nat 34) EmptyString in
    ("email:" ++ quote ++ email ++ quote)%string.

Definition getCustomersByEmail (email : string)
      : M W (option (list Customer.t)) :=
    try_catch
      (searchResult <- await (customers_search stripe (emailQuery email))
                             (CustomersSearch (emailQuery email)) ;;
       searchResult <- deref searchResult ;;
       ret (Some (SearchResult.data searchResult)))
      (fun err => ret None).

End StripeHelper.

Arguments isUSBankTransfer {W} stripe chargeId _.
Arguments isPiUsBankTransfer {W} paymentIntent _.
Arguments getCustomersByEmail {W} stripe email _.

(** ** Running a method *)

(** A call of a method starts with an empty history. *)
Definition result {W A} (m : M W A) (w : W) : Outcome A := fst (m (w, [])).

Definition history {W A} (m : M W A) (w : W) : list Event :=
  snd (snd (m (w, []))).

(** ** An in-memory client, for concrete runs *)

Record Store : Type := mkStore {
  store_charges : list Charge.t;
  store_intents : list PaymentIntent.t;
  store_customers : option (list Customer.t)
}.

(** Answers from the store and counts the calls in its state; an unknown
    identifier, or a store without customers, rejects. *)
Definition memoryStripe (db : Store) : Client nat :=
  mkClient nat
    (fun id n =>
       (match find (fun c => strict_eq (Charge.id c) id) (store_charges db) with
        | Some c => Resolved (Some c)
        | None => Rejected (mkError "No such charge")
        end, S n))
    (fun id n =>
       (match find (fun p => strict_eq (PaymentIntent.id p) id) (store_intents db) with
        | Some p => Resolved (Some p)
        | None => Rejected (mkError "No such payment_intent")
        end, S n))
    (fun query n =>
       (match store_customers db with
        | Some l => Resolved (Some (SearchResult.mk l))
        | None => Rejected (mkError "search failed")
        end, S n)).

Definition achDetails : option PaymentMethodDetails.t :=
  Some (PaymentMethodDetails.mk (str "us_bank_account")).

Definition cardDetails : option PaymentMethodDetails.t :=
  Some (PaymentMethodDetails.mk (str "card")).

Definition ch_1 : Charge.t := Charge.mk (str "ch_1") (str "pi_123") achDetails.
Definition ch_2 : Charge.t := Charge.mk (str "ch_2") (str "pi_456") cardDetails.
Definition py_1 : Charge.t := Charge.mk (str "py_1") (str "pi_456") achDetails.
Definition py_999 : Charge.t := Charge.mk (str "py_999") undefined achDetails.

(** [pi_123] embeds its latest charge; [pi_456] has an empty list, so its
    latest charge must be fetched; [pi_789] has neither list nor reference. *)
Definition pi_123 : PaymentIntent.t :=
  PaymentIntent.mk (str "pi_123") (str "ch_1") (Some (ChargeList.mk [ch_1])).
Definition pi_456 : PaymentIntent.t :=
  PaymentIntent.mk (str "pi_456") (str "ch_2") (Some (ChargeList.mk [])).
Definition pi_789 : PaymentIntent.t :=
  PaymentIntent.mk (str "pi_789") null None.

Definition sampleStore : Store :=
  mkStore [ch_1; ch_2; py_1; py_999] [pi_123; pi_456; pi_789] (Some []).

Definition brokenStore : Store := mkStore [] [] None.

Definition sampleStripe : Client nat := memoryStripe sampleStore.
Definition brokenStripe : Client nat := memoryStripe brokenStore.

(** A charge whose type differs from the literal by case only. *)
Definition ch_upper : Charge.t :=
  Charge.mk (str "ch_3") (str "pi_123")
    (Some (PaymentMethodDetails.mk (str "US_BANK_ACCOUNT"))).

(** A payment intent with a foreign id that embeds a bank-transfer charge. *)
Definition seti_1 : PaymentIntent.t :=
  PaymentIntent.mk (str "seti_1") (str "ch_1") (Some (ChargeList.mk [ch_1])).

(** ** The console and the environment *)

(** One argument of [console.log]. *)
Inductive LogArg : Type :=
| LogStr (s : string)
| LogBool (b : bool)
| LogDetails (d : option PaymentMethodDetails.t)
| LogSearchResult (r : option SearchResult.t)
| LogError (e : Error).

(** What was printed, one entry per [console.log], oldest first. *)
Definition Console : Type := list (list LogArg).

(** The logging methods run in the same monad, over the state of the
    client paired with the console. *)
Definition console_log {W} (args : list LogArg) : M (W * Console) unit :=
  fun '((w, out), h) => (Returned tt, ((w, out ++ [args]), h)).

(** The client does not print. *)
Definition onConsole {W} (stripe : Client W) : Client (W * Console) :=
  mkClient (W * Console)
    (fun id '(w, out) =>
       let '(r, w') := charges_retrieve stripe id w in (r, (w', out)))
    (fun id '(w, out) =>
       let '(r, w') := paymentIntents_retrieve stripe id w in (r, (w', out)))
    (fun query '(w, out) =>
       let '(r, w') := customers_search stripe query w in (r, (w', out))).

(** A value inside a template literal: [`${v}`]. *)
Definition template (v : JsString) : string :=
  match v with
  | undefined => "undefined"
  | null => "null"
  | str s => s
  end.

Notation "m ;; k" := (bind m (fun _ => k))
  (at level 61, right associativity) : stripe_scope.

(** [process.env]: a variable is a string or is not set. *)
Definition Env : Type := string -> option string.

Definition process_env (env : Env) (name : string) : JsString :=
  match env name with
  | Some v => str v
  | None => undefined
  end.

(** ** The class with its [debug] flag and its log lines
    (src/unnamed/part_001 and part_002) *)

Module Logged.

Record StripeHelper (W : Type) : Type := mk {
    stripe : Client W;
    debug : bool
  }.
Arguments stripe {W} _.
Arguments debug {W} _.

Section Methods.
Variable W : Type.
(** [require('stripe')]: the client made for an API key. *)
Variable requireStripe : string -> Client W.

(** [new StripeHelper()]: the field initialiser of [debug], then the body
    of the constructor. *)
Definition constructor (env : Env) : Outcome (StripeHelper W) :=
  let debug := strict_eq (process_env env "DEBUG") (str "true") in
  if negb (truthy (process_env env "STRIPE_API_KEY"))
  then Thrown (mkError "Missing env var: STRIPE_API_KEY")
  else Returned (mk W (requireStripe (template (process_env env "STRIPE_API_KEY")))
                      debug).

Variable this : StripeHelper W.

(** [if(this.debug) console.log(...)]. *)
Definition log (args : list LogArg) : M (W * Console) unit :=
  if debug this then console_log args else ret tt.

Definition isUSBankTransfer (chargeId : string) : M (W * Console) bool :=
  let logPrefix := "::isUSBankTransfer::" in
  log [LogStr (logPrefix ++ "checking charge id: " ++ chargeId
               ++ " to see if it is a US Bank transfer")%string] ;;
  try_catch
    (let derivedPi := undefined in
     let derivedPi := if startsWith chargeId "pi_" then str chargeId else derivedPi in
     derivedPi <-
       (if startsWith chargeId "py_" then
          charge <- await (charges_retrieve (onConsole (stripe this)) (str chargeId))
                          (ChargesRetrieve (str chargeId)) ;;
          charge <- deref charge ;;
          ret (if truthy (Charge.payment_intent charge)
               then Charge.payment_intent charge else derivedPi)
        else ret derivedPi) ;;
     if negb (truthy derivedPi) then
       log [LogStr (logPrefix ++ "unable to derive pi id from " ++ chargeId)%string] ;;
       ret false
     else
     log [LogStr (logPrefix ++ "checking whether " ++ template derivedPi
                  ++ " is a us bank transfer")%string] ;;
     pi <- await (paymentIntents_retrieve (onConsole (stripe this)) derivedPi)
                 (PaymentIntentsRetrieve derivedPi) ;;
     pi <- deref pi ;;
     if match PaymentIntent.charges pi with None => true | Some _ => false end
        && negb (truthy (PaymentIntent.latest_charge pi))
     then ret false else
     let latestCharge :=
       findLatest (PaymentIntent.charges pi) (PaymentIntent.latest_charge pi) in
     latestCharge <-
       (match latestCharge with
        | None =>
            log [LogStr (logPrefix ++ "retrieving latest_charge: "
                         ++ template (PaymentIntent.latest_charge pi))%string] ;;
            await (charges_retrieve (onConsole (stripe this))
                     (PaymentIntent.latest_charge pi))
                  (ChargesRetrieve (PaymentIntent.latest_charge pi))
        | Some c => ret (Some c)
        end) ;;
     log [LogStr "latestCharge.payment_method_details:";
          LogDetails (match latestCharge with
                      | Some c => Charge.payment_method_details c
                      | None => None
                      end)] ;;
     ret (classify latestCharge))
    (fun err =>
       log [LogStr (logPrefix ++ "error retrieving pi with id " ++ chargeId
                    ++ "; error was: " ++ message err)%string] ;;
       ret false).

Definition isPiUsBankTransfer (paymentIntent : PaymentIntent.t)
    : M (W * Console) bool :=
  let logPrefix := "::isPiUsBankTransfer::" in
  if negb (truthy (PaymentIntent.id paymentIntent))
     || negb (match PaymentIntent.id paymentIntent with
              | str s => startsWith s "pi_"
              | _ => false
              end)
  then ret false else
  match PaymentIntent.charges paymentIntent with
  | None => ret false
  | Some charges =>
      log [LogStr (logPrefix ++ "checking pi id: "
                   ++ template (PaymentIntent.id paymentIntent)
                   ++ " to see if it is a US Bank transfer")%string] ;;
      try_catch
        (let latestCharge :=
           find (fun c => strict_eq (Charge.id c)
                            (PaymentIntent.latest_charge paymentIntent))
                (ChargeList.data charges) in
         ret (classify latestCharge))
        (fun err =>
           log [LogStr (logPrefix ++ "error determining if "
                        ++ template (PaymentIntent.id paymentIntent)
                        ++ " is a bank transfer; error was: " ++ message err)%string] ;;
           ret false)
  end.

Definition getCustomersByEmail (email : string)
    : M (W * Console) (option (list Customer.t)) :=
  try_catch
    (searchResult <- await (customers_search (onConsole (stripe this)) (emailQuery email))
                           (CustomersSearch (emailQuery email)) ;;
     log [LogSearchResult searchResult] ;;
     searchResult <- deref searchResult ;;
     ret (Some (SearchResult.data searchResult)))
    (fun err => log [LogError err] ;; ret None).

End Methods.

Arguments constructor {W} requireStripe env.
Arguments isUSBankTransfer {W} this chargeId _.
Arguments isPiUsBankTransfer {W} this paymentIntent _.
Arguments getCustomersByEmail {W} this email _.

(** src/test-method.ts: [run()].  An error of the constructor rejects the
    promise of [run]. *)
Definition run {W} (requireStripe : string -> Client W) (env : Env)
    : M (W * Console) unit :=
  strHelper <- (match constructor requireStripe env with
                | Returned helper => ret helper
                | Thrown e => throw e
                end) ;;
  let pi := if truthy (process_env env "TEST_PI")
            then template (process_env env "TEST_PI") else "test-pi" in
  isUSBankTransfer <- isUSBankTransfer strHelper pi ;;
  console_log [LogBool isUSBankTransfer].

End Logged.

(** ** The earlier revision of the class (src/unnamed/part_000)

    It has no fallback fetch, prints its log lines unconditionally and its
    [isPiUsBankTransfer] is a static method. *)

Module Rev0.

Section Methods.
Variable W : Type.
Variable stripe : Client W.

Definition isUSBankTransfer (chargeId : string) : M (W * Console) bool :=
  let logPrefix := "::isUSBankTransfer::" in
  console_log [LogStr (logPrefix ++ "checking charge id: " ++ chargeId
                       ++ " to see if it is a US Bank transfer")%string] ;;
  try_catch
    (let derivedPi := undefined in
     let derivedPi := if startsWith chargeId "pi_" then str chargeId else derivedPi in
     derivedPi <-
       (if startsWith chargeId "py_" then
          charge <- await (charges_retrieve (onConsole stripe) (str chargeId))
                          (ChargesRetrieve (str chargeId)) ;;
          charge <- deref charge ;;
          ret (if truthy (Charge.payment_intent charge)
               then Charge.payment_intent charge else derivedPi)
        else ret derivedPi) ;;
     if negb (truthy derivedPi) then
       console_log [LogStr (logPrefix ++ "unable to derive pi id from "
                            ++ chargeId)%string] ;;
       ret false
     else
     console_log [LogStr (logPrefix ++ "checking whether " ++ template derivedPi
                          ++ " is a us bank transfer")%string] ;;
     pi <- await (paymentIntents_retrieve (onConsole stripe) derivedPi)
                 (PaymentIntentsRetrieve derivedPi) ;;
     pi <- deref pi ;;
     match PaymentIntent.charges pi with
     | None => ret false
     | Some charges =>
         let latestCharge :=
           find (fun c => strict_eq (Charge.id c) (PaymentIntent.latest_charge pi))
                (ChargeList.data charges) in
         ret (classify latestCharge)
     end)
    (fun err =>
       console_log [LogStr (logPrefix ++ "error retrieving pi with id " ++ chargeId
                            ++ "; error was: " ++ message err)%string] ;;
       ret false).

Definition isPiUsBankTransfer (paymentIntent : PaymentIntent.t)
    : M (W * Console) bool :=
  let logPrefix := "::isPiUsBankTransfer::" in
  if negb (truthy (PaymentIntent.id paymentIntent))
     || negb (match PaymentIntent.id paymentIntent with
              | str s => startsWith s "pi_"
              | _ => false
              end)
  then ret false else
  match PaymentIntent.charges paymentIntent with
  | None => ret false
  | Some charges =>
      console_log [LogStr (logPrefix ++ "checking pi id: "
                           ++ template (PaymentIntent.id paymentIntent)
                           ++ " to see if it is a US Bank transfer")%string] ;;
      try_catch
        (let latestCharge :=
           find (fun c => strict_eq (Charge.id c)
                            (PaymentIntent.latest_charge paymentIntent))
                (ChargeList.data charges) in
         ret (classify latestCharge))
        (fun err =>
           console_log [LogStr (logPrefix ++ "error determining if "
                                ++ template (PaymentIntent.id paymentIntent)
                                ++ " is a bank transfer; error was: "
                                ++ message err)%string] ;;
           ret false)
  end.

End Methods.

Arguments isUSBankTransfer {W} stripe chargeId _.
Arguments isPiUsBankTransfer {W} paymentIntent _.

End Rev0.

(** ** Running a logging method *)

(** What a method prints when it starts with an empty console. *)
Definition printed {W A} (m : M (W * Console) A) (w : W) : Console :=
  snd (fst (snd (m ((w, []), [])))).

(** The error a rejected call carried. *)
Definition rejection (ev : Event) : option Error :=
  match ev with
  | ChargesRetrieve _ (Rejected e)
  | PaymentIntentsRetrieve _ (Rejected e)
  | CustomersSearch _ (Rejected e) => Some e
  | _ => None
  end.

(** Environments for concrete runs. *)
Definition keyOnlyEnv : Env :=
  fun name => if String.eqb name "STRIPE_API_KEY" then Some "sk_test_1" else None.

Definition debugEnv : Env :=
  fun name =>
    if String.eqb name "STRIPE_API_KEY" then Some "sk_test_1"
    else if String.eqb name "DEBUG" then Some "true"
    else if String.eqb name "TEST_PI" then Some "py_1"
    else None.

Definition emptyEnv : Env := fun _ => None.

(** [DEBUG] set, but not to the exact string. *)
Definition upperDebugEnv : Env :=
  fun name =>
    if String.eqb name "STRIPE_API_KEY" then Some "sk_test_1"
    else if String.eqb name "DEBUG" then Some "TRUE"
    else None.

(** ** Reading a history *)

Definition isPaymentIntentsRetrieve (ev : Event) : bool :=
  match ev with PaymentIntentsRetrieve _ _ => true | _ => false end.

Definition isCustomersSearch (ev : Event) : bool :=
  match ev with CustomersSearch _ _ => true | _ => false end.

(** The call resolved, but to [undefined] or [null] instead of a record. *)
Definition resolvedNothing (ev : Event) : bool :=
  match ev with
  | ChargesRetrieve _ (Resolved None)
  | PaymentIntentsRetrieve _ (Resolved None)
  | CustomersSearch _ (Resolved None) => true
  | _ => false
  end.

(** A second entry with the id of [ch_1], of another type. *)
Definition ch_1_card : Charge.t := Charge.mk (str "ch_1") (str "pi_123") cardDetails.

(** The latest charge comes second in the list, after a card charge. *)
Definition pi_two : PaymentIntent.t :=
  PaymentIntent.mk (str "pi_two") (str "ch_1") (Some (ChargeList.mk [ch_2; ch_1])).

(** Two entries with the id of the latest charge: the card comes first. *)
Definition pi_dup : PaymentIntent.t :=
  PaymentIntent.mk (str "pi_dup") (str "ch_1") (Some (ChargeList.mk [ch_1_card; ch_1])).

(** Every key gives the sample client, or the rejecting one. *)
Definition sampleRequire : string -> Client nat := fun _ => sampleStripe.
Definition brokenHelper : Logged.StripeHelper nat := Logged.mk nat brokenStripe true.

(** A client whose every call resolves to nothing. *)
Definition emptyStripe : Client nat :=
  mkClient nat
    (fun _ n => (Resolved None, S n))
    (fun _ n => (Resolved None, S n))
    (fun _ n => (Resolved None, S n)).

(** ** Case analysis of a run *)

(** Unfolds the monad and splits on the next test or answer. *)
Ltac unfold_run :=
  unfold result, history, isUSBankTransfer, isPiUsBankTransfer,
    getCustomersByEmail, try_catch, bind, await, deref, ret, throw in *;
  cbn [fst snd app] in *.

Ltac atomic x :=
  lazymatch x with
  | context [match _ with _ => _ end] => fail
  | context [if _ then _ else _] => fail
  | _ => idtac
  end.

Ltac split_run :=
  repeat (cbn [fst snd app negb andb orb] in *;
    match goal with
    | |- context [match ?x with _ => _ end] => atomic x; destruct x eqn:?
    | |- context [if ?x then _ else _] => atomic x; destruct x eqn:?
    end);
  cbn [fst snd app negb andb orb] in *.

(** Inverts [h = pre ++ ev :: post] for a history [h] whose calls are
    listed explicitly. *)
Ltac split_history H :=
  lazymatch type of H with
  | [] = ?pre ++ _ :: _ => destruct pre; discriminate H
  | _ :: _ = ?pre ++ _ :: _ =>
      destruct pre as [|? pre]; cbn [app] in H;
      [ first [ discriminate H | inversion H; subst; clear H ]
      | injection H as ? H; split_history H ]
  end.

Ltac norm_negb :=
  repeat match goal with
         | H : negb _ = true |- _ => apply negb_true_iff in H
         | H : negb _ = false |- _ => apply negb_false_iff in H
         | H : truthy undefined = true |- _ => discriminate H
         end.

Ltac finish_run :=
  norm_negb;
  cbn [findLatest] in *;
  first [ congruence
        | split; congruence
        | eexists; split; [reflexivity | congruence] ].

(** The same for the logging methods. *)
Ltac unfold_logged :=
  unfold printed, Logged.run, Logged.constructor,
    Logged.isUSBankTransfer, Logged.isPiUsBankTransfer,
    Logged.getCustomersByEmail, Logged.log,
    Rev0.isUSBankTransfer, Rev0.isPiUsBankTransfer,
    console_log, onConsole in *;
  cbn [Logged.stripe Logged.debug charges_retrieve paymentIntents_retrieve
       customers_search] in *;
  unfold_run.

(** Brings a console or history [((l ++ [a]) ++ [b]) ++ ...] to the form
    [l ++ [a; b; ...]]. *)
Ltac flatten_appends := repeat rewrite <- app_assoc; cbn [app].

(** ** Basic facts *)

Lemma strict_eq_true (a b : JsString) : strict_eq a b = true <-> a = b.
Proof.
  destruct a, b; simpl; split; try congruence; try discriminate.
  - intros H. apply String.eqb_eq in H. now subst.
  - intros H. injection H as ->. apply String.eqb_refl.
Qed.

Lemma strict_eq_false (a b : JsString) : strict_eq a b = false <-> a <> b.
Proof.
  split.
  - intros H E. apply strict_eq_true in E. congruence.
  - intros H. destruct (strict_eq a b) eqn:E; [|reflexivity].
    apply strict_eq_true in E. contradiction.
Qed.

Lemma startsWith_pi_truthy (s : string) :
  startsWith s "pi_" = true -> truthy (str s) = true.
Proof. destruct s; [discriminate | reflexivity]. Qed.

Lemma startsWith_pi_not_py (s : string) :
  startsWith s "pi_" = true -> startsWith s "py_" = false.
Proof.
  unfold startsWith. destruct s as [|a [|b s]]; cbn [prefix]; try discriminate.
  - destruct (ascii_dec "p" a); discriminate.
  - destruct (ascii_dec "p" a) as [Ea|]; [|discriminate].
    destruct (ascii_dec "i" b) as [Eb|]; [|discriminate].
    subst b. intros _. destruct (ascii_dec "y" "i"); [discriminate|reflexivity].
Qed.

Lemma startsWith_py_not_pi (s : string) :
  startsWith s "py_" = true -> startsWith s "pi_" = false.
Proof.
  intros H. destruct (startsWith s "pi_") eqn:E; [|reflexivity].
  apply startsWith_pi_not_py in E. congruence.
Qed.

Lemma find_some_of_In (l : list Charge.t) (latest : JsString) (c : Charge.t) :
  In c l -> Charge.id c = latest ->
  exists c', find (fun c => strict_eq (Charge.id c) latest) l = Some c'.
Proof.
  induction l as [|x l IH]; simpl; [contradiction|].
  intros [->|Hin] E.
  - apply strict_eq_true in E. rewrite E. eauto.
  - destruct (strict_eq (Charge.id x) latest); eauto.
Qed.

Lemma find_none_of_no_match (l : list Charge.t) (latest : JsString) :
  (forall c, In c l -> Charge.id c <> latest) ->
  find (fun c => strict_eq (Charge.id c) latest) l = None.
Proof.
  induction l as [|x l IH]; simpl; [reflexivity|].
  intros H. assert (E : strict_eq (Charge.id x) latest = false).
  { apply strict_eq_false. apply H. now left. }
  rewrite E. apply IH. intros c Hc. apply H. now right.
Qed.

(** ** Properties of the methods, for every client *)

Section Properties.
Variable W : Type.
Variable stripe : Client W.

(** What happens once the payment intent has been fetched: the early
    exit, the embedded charge, or one fetch of the latest charge. *)
Lemma isUSBankTransfer_after_intent (chargeId : string) (w : W)
    (pre post : list Event) (d : JsString) (pi : PaymentIntent.t) :
  history (isUSBankTransfer stripe chargeId) w
    = pre ++ PaymentIntentsRetrieve d (Resolved (Some pi)) :: post ->
  match PaymentIntent.charges pi, truthy (PaymentIntent.latest_charge pi) with
  | None, false =>
      post = [] /\ result (isUSBankTransfer stripe chargeId) w = Returned false
  | _, _ =>
      match findLatest (PaymentIntent.charges pi) (PaymentIntent.latest_charge pi) with
      | Some c =>
          post = [] /\
          result (isUSBankTransfer stripe chargeId) w = Returned (classify (Some c))
      | None =>
          exists r,
            post = [ChargesRetrieve (PaymentIntent.latest_charge pi) r] /\
            result (isUSBankTransfer stripe chargeId) w
              = Returned (match r with
                          | Resolved c => classify c
                          | Rejected _ => false
                          end)
      end
  end.
Proof.
  unfold_run. split_run; intros H; split_history H; finish_run.
Qed.

(** ** The claims *)

(** C1. The final test of both methods, [classify], is true exactly when
    the charge has payment-method details whose [type] is the literal
    ["us_bank_account"]; it is false without details and for every other
    value of [type].  [isPiUsBankTransfer] returns this test of the embedded
    charge it found, and [isUSBankTransfer] returns it of the embedded or
    fetched latest charge. *)
Theorem classify_us_bank_account_exactly :
  (forall c, classify (Some c) = true <->
     exists d, Charge.payment_method_details c = Some d
               /\ PaymentMethodDetails.type d = str "us_bank_account")
  /\ (forall c, Charge.payment_method_details c = None -> classify (Some c) = false)
  /\ (forall c d, Charge.payment_method_details c = Some d ->
        PaymentMethodDetails.type d <> str "us_bank_account" ->
        classify (Some c) = false)
  /\ (forall paymentIntent s l c (st : St W),
        PaymentIntent.id paymentIntent = str s -> startsWith s "pi_" = true ->
        PaymentIntent.charges paymentIntent = Some l ->
        find (fun c => strict_eq (Charge.id c) (PaymentIntent.latest_charge paymentIntent))
             (ChargeList.data l) = Some c ->
        isPiUsBankTransfer paymentIntent st = (Returned (classify (Some c)), st))
  /\ (forall chargeId w pre d pi post,
        history (isUSBankTransfer stripe chargeId) w
          = pre ++ PaymentIntentsRetrieve d (Resolved (Some pi)) :: post ->
        (forall c,
           findLatest (PaymentIntent.charges pi) (PaymentIntent.latest_charge pi) = Some c ->
           result (isUSBankTransfer stripe chargeId) w = Returned (classify (Some c)))
        /\ (forall id c, post = [ChargesRetrieve id (Resolved (Some c))] ->
              result (isUSBankTransfer stripe chargeId) w = Returned (classify (Some c)))).
Proof.
  split; [|split; [|split; [|split]]].
  - intros c. unfold classify.
    destruct (Charge.payment_method_details c) as [d|]; split.
    + intros H. apply strict_eq_true in H. eauto.
    + intros (d' & E & H). injection E as <-. now apply strict_eq_true.
    + discriminate.
    + intros (d' & E & _). discriminate.
  - intros c E. unfold classify. now rewrite E.
  - intros c d E H. unfold classify. rewrite E. now apply strict_eq_false.
  - intros paymentIntent s l c st Hid Hpre Hch Hfind.
    unfold isPiUsBankTransfer. rewrite Hid, Hpre, Hch.
    rewrite (startsWith_pi_truthy s Hpre). cbn [negb orb].
    unfold try_catch, ret. now rewrite Hfind.
  - intros chargeId w pre d pi post H.
    apply isUSBankTransfer_after_intent in H.
    destruct (PaymentIntent.charges pi) as [l|] eqn:Hch;
      destruct (truthy (PaymentIntent.latest_charge pi)) eqn:Ht;
      cbn [findLatest] in *;
      try (destruct (find _ (ChargeList.data l)) as [c0|] eqn:Hf);
      (split; [intros c Hc | intros id c Hp]);
      repeat match goal with
             | H : _ /\ _ |- _ => destruct H
             | H : exists _, _ |- _ => destruct H
             end; subst; try congruence.
    all: injection Hp as E1 E2; subst; assumption.
Qed.

(** C2. Whatever the client answers, [isUSBankTransfer] returns a boolean
    and never raises; and when any of its network calls was rejected with an
    error, the boolean is [false]. *)
Theorem isUSBankTransfer_error_yields_false (chargeId : string) (w : W) :
  exists b, result (isUSBankTransfer stripe chargeId) w = Returned b
    /\ (existsb rejected (history (isUSBankTransfer stripe chargeId) w) = true
        -> b = false).
Proof.
  unfold_run. split_run; eexists; (split; [reflexivity|]);
    cbn; try reflexivity; try discriminate.
Qed.

(** C3. Once [isUSBankTransfer] has fetched a payment intent: if its
    embedded list has an entry whose id is [latest_charge], no call
    follows; if [latest_charge] is a non-empty id and the list is missing or
    has no such entry, exactly one call follows, the fetch of the charge
    [latest_charge]. *)
Theorem isUSBankTransfer_fallback_fetch (chargeId : string) (w : W)
    (pre post : list Event) (d : JsString) (pi : PaymentIntent.t) :
  history (isUSBankTransfer stripe chargeId) w
    = pre ++ PaymentIntentsRetrieve d (Resolved (Some pi)) :: post ->
  ((exists l c, PaymentIntent.charges pi = Some l /\ In c (ChargeList.data l)
                /\ Charge.id c = PaymentIntent.latest_charge pi) ->
   post = [])
  /\ (truthy (PaymentIntent.latest_charge pi) = true ->
      (PaymentIntent.charges pi = None
       \/ exists l, PaymentIntent.charges pi = Some l
                    /\ forall c, In c (ChargeList.data l) ->
                                 Charge.id c <> PaymentIntent.latest_charge pi) ->
      exists r, post = [ChargesRetrieve (PaymentIntent.latest_charge pi) r]).
Proof.
  intros H. apply isUSBankTransfer_after_intent in H. split.
  - intros (l & c & Hch & Hin & Hid). rewrite Hch in H. cbn [findLatest] in H.
    destruct (find_some_of_In _ _ _ Hin Hid) as [c' Hc']. rewrite Hc' in H.
    destruct (truthy (PaymentIntent.latest_charge pi)); apply H.
  - intros Ht Hno. rewrite Ht in H.
    assert (Hf : findLatest (PaymentIntent.charges pi)
                   (PaymentIntent.latest_charge pi) = None).
    { destruct Hno as [-> | (l & -> & Hl)]; [reflexivity|].
      now apply find_none_of_no_match. }
    rewrite Hf in H.
    destruct (PaymentIntent.charges pi); destruct H as (r & -> & _); eauto.
Qed.

(** C4, as the code has it. For an identifier with the charge prefix
    ["py_"], the first call fetches the charge of that identifier, and when
    the fetched record has a payment-intent reference, the next call fetches
    the payment intent of that reference.  An identifier with neither prefix
    causes no call at all and the answer is [false]. *)
Theorem isUSBankTransfer_charge_prefix_resolution (chargeId : string) (w : W) :
  (startsWith chargeId "py_" = true ->
   exists r rest,
     history (isUSBankTransfer stripe chargeId) w
       = ChargesRetrieve (str chargeId) r :: rest
     /\ forall charge,
          r = Resolved (Some charge) ->
          truthy (Charge.payment_intent charge) = true ->
          exists r' post,
            rest = PaymentIntentsRetrieve (Charge.payment_intent charge) r' :: post)
  /\ (startsWith chargeId "pi_" = false -> startsWith chargeId "py_" = false ->
      history (isUSBankTransfer stripe chargeId) w = []
      /\ result (isUSBankTransfer stripe chargeId) w = Returned false).
Proof.
  split.
  - intros Hpy. pose proof (startsWith_py_not_pi _ Hpy) as Hpi.
    unfold_run. rewrite Hpy, Hpi. split_run.
    all: do 2 eexists; (split; [reflexivity|]); intros charge E Ht;
      try discriminate E; injection E as <-; norm_negb; try congruence; eauto.
  - intros Hpi Hpy. unfold_run. rewrite Hpi, Hpy. cbn. auto.
Qed.

(** C5. For an identifier with the charge prefix ["py_"], the history
    starts with the fetch of that charge and what follows, if anything,
    starts with the fetch of the payment intent: resolution makes exactly one
    charge lookup.  When the fetched charge has no payment-intent reference,
    nothing follows and the answer is [false]. *)
Theorem isUSBankTransfer_charge_prefix_one_lookup (chargeId : string) (w : W) :
  startsWith chargeId "py_" = true ->
  exists r rest,
    history (isUSBankTransfer stripe chargeId) w
      = ChargesRetrieve (str chargeId) r :: rest
    /\ (rest = [] \/ exists d r' post, rest = PaymentIntentsRetrieve d r' :: post)
    /\ forall charge,
         r = Resolved (Some charge) ->
         truthy (Charge.payment_intent charge) = false ->
         rest = []
         /\ result (isUSBankTransfer stripe chargeId) w = Returned false.
Proof.
  intros Hpy. pose proof (startsWith_py_not_pi _ Hpy) as Hpi.
  unfold_run. rewrite Hpy, Hpi. split_run.
  all: do 2 eexists; (split; [reflexivity|]); split;
    [ first [ now left | right; eauto ]
    | intros charge E Ht; try discriminate E; injection E as <-;
      norm_negb; first [ congruence | auto ] ].
Qed.

(** C6. For an identifier with the payment-intent prefix ["pi_"], the
    first call is the fetch of the payment intent of that very identifier;
    the only call that can follow is the fetch of its latest charge. *)
Theorem isUSBankTransfer_intent_prefix_direct (chargeId : string) (w : W) :
  startsWith chargeId "pi_" = true ->
  exists r post,
    history (isUSBankTransfer stripe chargeId) w
      = PaymentIntentsRetrieve (str chargeId) r :: post
    /\ (post = []
        \/ exists pi r2, r = Resolved (Some pi)
             /\ post = [ChargesRetrieve (PaymentIntent.latest_charge pi) r2]).
Proof.
  intros Hpi. pose proof (startsWith_pi_not_py _ Hpi) as Hpy.
  pose proof (startsWith_pi_truthy _ Hpi) as Ht.
  unfold_run. rewrite Hpi, Hpy. cbn [fst snd]. rewrite Ht. split_run.
  all: do 2 eexists; (split; [reflexivity|]);
    first [ now left | right; eauto ].
Qed.

(** C7. [getCustomersByEmail] makes one search call; when it resolves to
    a response, the result is the customer list of that response; when it
    is rejected, the result is the absent marker, which is not the empty
    list a search without matches gives. *)
Theorem getCustomersByEmail_absent_on_error (email : string) (w : W) :
  (exists r' : Response SearchResult.t, history (getCustomersByEmail stripe email) w
     = [CustomersSearch (emailQuery email) r'])
  /\ (forall searchResult,
        fst (customers_search stripe (emailQuery email) w)
          = Resolved (Some searchResult) ->
        result (getCustomersByEmail stripe email) w
          = Returned (Some (SearchResult.data searchResult)))
  /\ (forall err,
        fst (customers_search stripe (emailQuery email) w) = Rejected err ->
        result (getCustomersByEmail stripe email) w = Returned None
        /\ result (getCustomersByEmail stripe email) w <> Returned (Some [])).
Proof.
  unfold_run.
  destruct (customers_search stripe (emailQuery email) w) as [[[sr|]|e] w'];
    cbn [fst snd app]; (split; [eauto|]); split.
  all: try (intros x E; try discriminate E).
  all: try (injection E as <-; reflexivity).
  all: split; [reflexivity | discriminate].
Qed.

(** C8. Once [isUSBankTransfer] has fetched a payment intent that has
    neither an embedded charge list nor a latest-charge reference, it answers
    [false] and makes no further call. *)
Theorem isUSBankTransfer_no_charge_data (chargeId : string) (w : W)
    (pre post : list Event) (d : JsString) (pi : PaymentIntent.t) :
  history (isUSBankTransfer stripe chargeId) w
    = pre ++ PaymentIntentsRetrieve d (Resolved (Some pi)) :: post ->
  PaymentIntent.charges pi = None ->
  truthy (PaymentIntent.latest_charge pi) = false ->
  result (isUSBankTransfer stripe chargeId) w = Returned false /\ post = [].
Proof.
  intros H Hch Ht. apply isUSBankTransfer_after_intent in H.
  rewrite Hch, Ht in H. destruct H. auto.
Qed.

(** C9. [isPiUsBankTransfer] makes no network call: it returns a boolean
    and leaves the client and the history as they were.  Without an embedded
    charge list the boolean is [false], and so it is when no entry of the
    list has the id [latest_charge]. *)
Theorem isPiUsBankTransfer_no_network (paymentIntent : PaymentIntent.t) (st : St W) :
  exists b,
    isPiUsBankTransfer paymentIntent st = (Returned b, st)
    /\ (PaymentIntent.charges paymentIntent = None -> b = false)
    /\ (forall l, PaymentIntent.charges paymentIntent = Some l ->
          (forall c, In c (ChargeList.data l) ->
                     Charge.id c <> PaymentIntent.latest_charge paymentIntent) ->
          b = false).
Proof.
  unfold isPiUsBankTransfer, try_catch, ret.
  destruct (negb (truthy (PaymentIntent.id paymentIntent)) || _).
  - eexists. split; [reflexivity|]. auto.
  - destruct (PaymentIntent.charges paymentIntent) as [l|].
    + eexists. split; [reflexivity|]. split; [discriminate|].
      intros l' E Hno. injection E as <-.
      now rewrite (find_none_of_no_match _ _ Hno).
    + eexists. split; [reflexivity|]. auto.
Qed.

(** C10. [isPiUsBankTransfer] answers [false], without a call, for every
    payment intent whose [id] is absent, empty or without the prefix
    ["pi_"], whatever its embedded charges are. *)
Theorem isPiUsBankTransfer_requires_pi_id (paymentIntent : PaymentIntent.t) (st : St W) :
  PaymentIntent.id paymentIntent = undefined
  \/ PaymentIntent.id paymentIntent = null
  \/ PaymentIntent.id paymentIntent = str EmptyString
  \/ (exists s, PaymentIntent.id paymentIntent = str s /\ startsWith s "pi_" = false) ->
  isPiUsBankTransfer paymentIntent st = (Returned false, st).
Proof.
  unfold isPiUsBankTransfer.
  intros [E | [E | [E | (s & E & Hs)]]]; rewrite E; cbn [truthy negb orb];
    try reflexivity.
  rewrite Hs. now rewrite orb_true_r.
Qed.

End Properties.

(** ** Concrete runs against the in-memory client *)

(** Scenario ["pi_123"]: embedded us_bank_account charge, one call. *)
Example scenario_pi_123 :
  isUSBankTransfer sampleStripe "pi_123" (0, [])
  = (Returned true,
     (1, [PaymentIntentsRetrieve (str "pi_123") (Resolved (Some pi_123))])).
Proof. reflexivity. Qed.

(** Scenario ["py_999"]: charge without payment intent, one call. *)
Example scenario_py_999 :
  isUSBankTransfer sampleStripe "py_999" (0, [])
  = (Returned false,
     (1, [ChargesRetrieve (str "py_999") (Resolved (Some py_999))])).
Proof. reflexivity. Qed.

(** Scenario ["pi_456"]: empty embedded list, the fetched charge is a
    card, two calls. *)
Example scenario_pi_456 :
  isUSBankTransfer sampleStripe "pi_456" (0, [])
  = (Returned false,
     (2, [PaymentIntentsRetrieve (str "pi_456") (Resolved (Some pi_456));
          ChargesRetrieve (str "ch_2") (Resolved (Some ch_2))])).
Proof. reflexivity. Qed.

(** C1 at concrete charges: the literal is accepted, the card, the
    upper-case variant and the charge without details are not. *)
Lemma classify_us_bank_account_exactly_witness :
  classify (Some ch_1) = true
  /\ classify (Some ch_2) = false
  /\ classify (Some ch_upper) = false
  /\ classify (Some (Charge.mk (str "ch_4") undefined None)) = false
  /\ isPiUsBankTransfer pi_123 (0, []) = (Returned true, (0, []))
  /\ result (isUSBankTransfer sampleStripe "py_1") 0 = Returned false.
Proof.
  destruct (classify_us_bank_account_exactly nat sampleStripe)
    as (Hiff & Hnone & Hother & Hpi & Hid).
  split; [|split; [|split; [|split; [|split]]]].
  - apply Hiff. eexists. split; reflexivity.
  - apply (Hother ch_2 (PaymentMethodDetails.mk (str "card")));
      [reflexivity | discriminate].
  - apply (Hother ch_upper (PaymentMethodDetails.mk (str "US_BANK_ACCOUNT")));
      [reflexivity | discriminate].
  - apply Hnone. reflexivity.
  - apply (Hpi pi_123 "pi_123" (ChargeList.mk [ch_1]) ch_1); reflexivity.
  - apply (proj2 (Hid "py_1" 0
                      [ChargesRetrieve (str "py_1") (Resolved (Some py_1))]
                      (str "pi_456") pi_456
                      [ChargesRetrieve (str "ch_2") (Resolved (Some ch_2))]
                      eq_refl) (str "ch_2") ch_2).
    reflexivity.
Defined.

(** C2 at a client that rejects every call. *)
Lemma isUSBankTransfer_error_yields_false_witness :
  existsb rejected (history (isUSBankTransfer brokenStripe "py_1") 0) = true
  /\ result (isUSBankTransfer brokenStripe "py_1") 0 = Returned false.
Proof.
  split; [reflexivity|].
  destruct (isUSBankTransfer_error_yields_false nat brokenStripe "py_1" 0)
    as (b & E & H).
  rewrite E. f_equal. apply H. reflexivity.
Defined.

(** C3 at ["py_1"]: the payment intent [pi_456] has an empty list, so its
    latest charge [ch_2] is fetched once. *)
Lemma isUSBankTransfer_fallback_fetch_witness :
  history (isUSBankTransfer sampleStripe "py_1") 0
    = [ChargesRetrieve (str "py_1") (Resolved (Some py_1))]
      ++ PaymentIntentsRetrieve (str "pi_456") (Resolved (Some pi_456))
      :: [ChargesRetrieve (str "ch_2") (Resolved (Some ch_2))]
  /\ truthy (PaymentIntent.latest_charge pi_456) = true
  /\ exists r,
       [ChargesRetrieve (str "ch_2") (Resolved (Some ch_2))]
       = [ChargesRetrieve (PaymentIntent.latest_charge pi_456) r].
Proof.
  split; [reflexivity|]. split; [reflexivity|].
  apply (isUSBankTransfer_fallback_fetch nat sampleStripe "py_1" 0
           [ChargesRetrieve (str "py_1") (Resolved (Some py_1))]
           [ChargesRetrieve (str "ch_2") (Resolved (Some ch_2))]
           (str "pi_456") pi_456 eq_refl).
  - reflexivity.
  - right. exists (ChargeList.mk []). split; [reflexivity|].
    intros c [].
Defined.

(** C4 as stated fails at ["ch_1"]: the identifier has no ["pi_"] prefix,
    the client holds that charge and it references [pi_123], yet no call is
    made and the answer is [false]. *)
Lemma isUSBankTransfer_other_prefix_no_fetch :
  startsWith "ch_1" "pi_" = false
  /\ fst (charges_retrieve sampleStripe (str "ch_1") 0) = Resolved (Some ch_1)
  /\ Charge.payment_intent ch_1 = str "pi_123"
  /\ history (isUSBankTransfer sampleStripe "ch_1") 0 = []
  /\ result (isUSBankTransfer sampleStripe "ch_1") 0 = Returned false.
Proof. repeat split. Qed.

(** C4 as amended, at ["py_1"]. *)
Lemma isUSBankTransfer_charge_prefix_resolution_witness :
  startsWith "py_1" "py_" = true
  /\ exists r rest,
       history (isUSBankTransfer sampleStripe "py_1") 0
         = ChargesRetrieve (str "py_1") r :: rest
       /\ forall charge,
            r = Resolved (Some charge) ->
            truthy (Charge.payment_intent charge) = true ->
            exists r' post,
              rest = PaymentIntentsRetrieve (Charge.payment_intent charge) r' :: post.
Proof.
  split; [reflexivity|].
  apply (isUSBankTransfer_charge_prefix_resolution nat sampleStripe "py_1" 0).
  reflexivity.
Defined.

(** C5 at ["py_999"], whose charge has no payment intent. *)
Lemma isUSBankTransfer_charge_prefix_one_lookup_witness :
  startsWith "py_999" "py_" = true
  /\ exists r rest,
       history (isUSBankTransfer sampleStripe "py_999") 0
         = ChargesRetrieve (str "py_999") r :: rest
       /\ (rest = [] \/ exists d r' post, rest = PaymentIntentsRetrieve d r' :: post)
       /\ forall charge,
            r = Resolved (Some charge) ->
            truthy (Charge.payment_intent charge) = false ->
            rest = []
            /\ result (isUSBankTransfer sampleStripe "py_999") 0 = Returned false.
Proof.
  split; [reflexivity|].
  apply (isUSBankTransfer_charge_prefix_one_lookup nat sampleStripe "py_999" 0).
  reflexivity.
Defined.

(** C6 at ["pi_456"]. *)
Lemma isUSBankTransfer_intent_prefix_direct_witness :
  startsWith "pi_456" "pi_" = true
  /\ exists r post,
       history (isUSBankTransfer sampleStripe "pi_456") 0
         = PaymentIntentsRetrieve (str "pi_456") r :: post
       /\ (post = []
           \/ exists pi r2, r = Resolved (Some pi)
                /\ post = [ChargesRetrieve (PaymentIntent.latest_charge pi) r2]).
Proof.
  split; [reflexivity|].
  apply (isUSBankTransfer_intent_prefix_direct nat sampleStripe "pi_456" 0).
  reflexivity.
Defined.

(** C7: a search without matches gives the empty list, a rejected search
    the absent marker. *)
Lemma getCustomersByEmail_absent_on_error_witness :
  result (getCustomersByEmail sampleStripe "a@b.com") 0 = Returned (Some [])
  /\ result (getCustomersByEmail brokenStripe "a@b.com") 0 = Returned None.
Proof.
  split.
  - destruct (getCustomersByEmail_absent_on_error nat sampleStripe "a@b.com" 0)
      as (_ & Hok & _).
    apply (Hok (SearchResult.mk [])). reflexivity.
  - destruct (getCustomersByEmail_absent_on_error nat brokenStripe "a@b.com" 0)
      as (_ & _ & Herr).
    apply (Herr (mkError "search failed")). reflexivity.
Defined.

(** C8 at a payment intent without charges and without latest charge. *)
Lemma isUSBankTransfer_no_charge_data_witness :
  history (isUSBankTransfer sampleStripe "pi_789") 0
    = [] ++ PaymentIntentsRetrieve (str "pi_789") (Resolved (Some pi_789)) :: []
  /\ PaymentIntent.charges pi_789 = None
  /\ truthy (PaymentIntent.latest_charge pi_789) = false
  /\ result (isUSBankTransfer sampleStripe "pi_789") 0 = Returned false.
Proof.
  split; [reflexivity|]. split; [reflexivity|]. split; [reflexivity|].
  apply (isUSBankTransfer_no_charge_data nat sampleStripe "pi_789" 0 [] []
           (str "pi_789") pi_789); reflexivity.
Defined.

(** C9 at [pi_456], whose latest charge is not embedded. *)
Lemma isPiUsBankTransfer_no_network_witness :
  exists b,
    isPiUsBankTransfer pi_456 (0, []) = (Returned b, (0, []))
    /\ (PaymentIntent.charges pi_456 = None -> b = false)
    /\ (forall l, PaymentIntent.charges pi_456 = Some l ->
          (forall c, In c (ChargeList.data l) ->
                     Charge.id c <> PaymentIntent.latest_charge pi_456) ->
          b = false).
Proof. apply (isPiUsBankTransfer_no_network nat pi_456 (0, [])). Defined.

(** C10 at [seti_1]: a matching us_bank_account charge is embedded, the id
    has another prefix, the answer is [false]. *)
Lemma isPiUsBankTransfer_requires_pi_id_witness :
  findLatest (PaymentIntent.charges seti_1) (PaymentIntent.latest_charge seti_1)
    = Some ch_1
  /\ classify (Some ch_1) = true
  /\ isPiUsBankTransfer seti_1 (0, []) = (Returned false, (0, [])).
Proof.
  split; [reflexivity|]. split; [reflexivity|].
  apply (isPiUsBankTransfer_requires_pi_id nat seti_1 (0, [])).
  right. right. right. exists "seti_1". split; reflexivity.
Defined.

(** ** Further properties of the methods *)

Lemma find_first_match {A : Type} (f : A -> bool) (l : list A) (x : A) :
  find f l = Some x <->
  exists before after,
    l = before ++ x :: after /\ f x = true
    /\ forall y, In y before -> f y = false.
Proof.
  induction l as [|a l IH]; simpl.
  - split; [discriminate|]. intros ([|? ?] & after & E & _); discriminate E.
  - destruct (f a) eqn:Fa; split.
    + intros E. injection E as <-. exists [], l. repeat split; auto.
      intros y [].
    + intros ([|b before] & after & E & Fx & Hb); injection E as Ea El.
      * congruence.
      * assert (f a = false) by (apply Hb; left; auto). congruence.
    + intros E. apply IH in E. destruct E as (before & after & -> & Fx & Hb).
      exists (a :: before), after. repeat split; auto.
      intros y [<-|Hy]; auto.
    + intros ([|b before] & after & E & Fx & Hb); injection E as Ea El.
      * congruence.
      * apply IH. exists before, after. repeat split; auto.
        intros y Hy. apply Hb. now right.
Qed.

Section MoreProperties.
Variable W : Type.
Variable stripe : Client W.

(** X1. [isUSBankTransfer] makes at most three network calls, of which at
    most one fetches a payment intent and none searches customers. *)
Theorem isUSBankTransfer_call_bound (chargeId : string) (w : W) :
  length (history (isUSBankTransfer stripe chargeId) w) <= 3
  /\ length (filter isPaymentIntentsRetrieve
               (history (isUSBankTransfer stripe chargeId) w)) <= 1
  /\ existsb isCustomersSearch (history (isUSBankTransfer stripe chargeId) w) = false.
Proof.
  unfold_run. split_run; cbn; repeat split; repeat constructor.
Qed.

(** X2. A positive answer of [isUSBankTransfer] rests on a charge it has
    seen: a payment intent was fetched, and either its embedded list holds
    the latest charge or that charge was fetched right after; in both cases
    the charge passes the final test. *)
Theorem isUSBankTransfer_true_has_evidence (chargeId : string) (w : W) :
  result (isUSBankTransfer stripe chargeId) w = Returned true ->
  exists pre d pi post c,
    history (isUSBankTransfer stripe chargeId) w
      = pre ++ PaymentIntentsRetrieve d (Resolved (Some pi)) :: post
    /\ classify (Some c) = true
    /\ ((findLatest (PaymentIntent.charges pi) (PaymentIntent.latest_charge pi) = Some c
         /\ post = [])
        \/ (findLatest (PaymentIntent.charges pi) (PaymentIntent.latest_charge pi) = None
            /\ post = [ChargesRetrieve (PaymentIntent.latest_charge pi)
                         (Resolved (Some c))])).
Proof.
  unfold_run. split_run; try (intros E; discriminate E).
  all: match goal with
       | |- Returned (classify ?v) = Returned true -> _ =>
           intros E; assert (Hc : classify v = true) by congruence; clear E;
           try (destruct v as [c|]; [|discriminate Hc])
       end.
  all: first
    [ solve [ exists []; cbn [app]; do 4 eexists;
              (split; [reflexivity|]); (split; [exact Hc|]);
              first [ left; split; [congruence | reflexivity]
                    | right; split; [congruence | reflexivity] ] ]
    | solve [ refine (ex_intro _ [_] _); cbn [app]; do 4 eexists;
              (split; [reflexivity|]); (split; [exact Hc|]);
              first [ left; split; [congruence | reflexivity]
                    | right; split; [congruence | reflexivity] ] ] ].
Qed.

(** X3. A call of [isUSBankTransfer] that resolves to nothing instead of a
    record makes the answer [false]. *)
Theorem isUSBankTransfer_nothing_yields_false (chargeId : string) (w : W) :
  existsb resolvedNothing (history (isUSBankTransfer stripe chargeId) w) = true ->
  result (isUSBankTransfer stripe chargeId) w = Returned false.
Proof.
  unfold_run. split_run; cbn [existsb resolvedNothing orb]; split_run;
    intros E; try discriminate E; reflexivity.
Qed.

(** X4. A charge id with the prefix ["py_"] whose charge references a payment
    intent ["pi_..."] is classified, from the lookup of the charge on, exactly
    as that payment-intent id is. *)
Theorem isUSBankTransfer_charge_then_intent (chargeId p : string) (w w0 : W)
    (h : list Event) (charge : Charge.t) :
  startsWith chargeId "py_" = true ->
  charges_retrieve stripe (str chargeId) w = (Resolved (Some charge), w0) ->
  Charge.payment_intent charge = str p ->
  startsWith p "pi_" = true ->
  isUSBankTransfer stripe chargeId (w, h)
  = isUSBankTransfer stripe p
      (w0, h ++ [ChargesRetrieve (str chargeId) (Resolved (Some charge))]).
Proof.
  intros Hpy Hc Hp Hpi.
  pose proof (startsWith_py_not_pi _ Hpy) as Hnpi.
  pose proof (startsWith_pi_not_py _ Hpi) as Hnpy.
  pose proof (startsWith_pi_truthy _ Hpi) as Ht.
  unfold_run. rewrite Hpy, Hnpi, Hc, Hp, Hpi, Hnpy. cbn [fst snd].
  rewrite Ht. cbn [fst snd]. rewrite ?Ht. reflexivity.
Qed.

(** X5. When the client serves a payment intent under its own ["pi_"] id and
    the intent embeds its latest charge, [isUSBankTransfer] on that id gives
    the answer of [isPiUsBankTransfer] on the record, with that one call. *)
Theorem isUSBankTransfer_agrees_with_isPiUsBankTransfer
    (s : string) (pi : PaymentIntent.t) (c : Charge.t) (w w1 : W)
    (h : list Event) (st : St W) :
  PaymentIntent.id pi = str s ->
  startsWith s "pi_" = true ->
  paymentIntents_retrieve stripe (str s) w = (Resolved (Some pi), w1) ->
  findLatest (PaymentIntent.charges pi) (PaymentIntent.latest_charge pi) = Some c ->
  exists b,
    isPiUsBankTransfer pi st = (Returned b, st)
    /\ isUSBankTransfer stripe s (w, h)
       = (Returned b, (w1, h ++ [PaymentIntentsRetrieve (str s) (Resolved (Some pi))])).
Proof.
  intros Hid Hpi Hr Hf.
  pose proof (startsWith_pi_not_py _ Hpi) as Hnpy.
  pose proof (startsWith_pi_truthy _ Hpi) as Ht.
  exists (classify (Some c)).
  destruct (PaymentIntent.charges pi) as [l|] eqn:Hch; [|discriminate Hf].
  cbn [findLatest] in Hf. split.
  - unfold isPiUsBankTransfer. rewrite Hid, Hpi, Ht, Hch. cbn [negb orb].
    unfold try_catch, ret. now rewrite Hf.
  - unfold_run. rewrite Hpi, Hnpy. cbn [fst snd]. rewrite Ht. cbn [negb].
    rewrite Hr, Hch. cbn [andb findLatest]. now rewrite Hf.
Qed.

(** X6. [isPiUsBankTransfer] answers [true] exactly when the id has the prefix
    ["pi_"] and the first entry of the embedded list whose id is
    [latest_charge] has the payment-method type ["us_bank_account"]; later
    entries with that id are not looked at. *)
Theorem isPiUsBankTransfer_true_iff (paymentIntent : PaymentIntent.t) (st : St W) :
  isPiUsBankTransfer paymentIntent st = (Returned true, st) <->
  (exists s, PaymentIntent.id paymentIntent = str s /\ startsWith s "pi_" = true)
  /\ exists l before c after,
       PaymentIntent.charges paymentIntent = Some l
       /\ ChargeList.data l = before ++ c :: after
       /\ (forall x, In x before ->
             Charge.id x <> PaymentIntent.latest_charge paymentIntent)
       /\ Charge.id c = PaymentIntent.latest_charge paymentIntent
       /\ classify (Some c) = true.
Proof.
  split.
  - unfold isPiUsBankTransfer, try_catch, ret.
    destruct (PaymentIntent.id paymentIntent) as [| |s] eqn:Hid.
    1, 2: cbn; discriminate.
    destruct (truthy (str s)); cbn [negb orb]; [|discriminate].
    destruct (startsWith s "pi_") eqn:Hpi; cbn [negb]; [|discriminate].
    destruct (PaymentIntent.charges paymentIntent) as [l|]; [|discriminate].
    destruct (find _ (ChargeList.data l)) as [c|] eqn:Hf; [|discriminate].
    intros E. split; [eauto|].
    apply find_first_match in Hf. destruct Hf as (before & after & El & Hc & Hb).
    exists l, before, c, after. repeat split; auto.
    + intros x Hx. apply strict_eq_false. auto.
    + now apply strict_eq_true.
    + congruence.
  - intros ((s & Hid & Hpi) & l & before & c & after & Hch & El & Hb & Hc & Hcl).
    unfold isPiUsBankTransfer, try_catch, ret.
    rewrite Hid, Hpi, (startsWith_pi_truthy s Hpi), Hch. cbn [negb orb].
    assert (Hf : find (fun c => strict_eq (Charge.id c)
                                  (PaymentIntent.latest_charge paymentIntent))
                   (ChargeList.data l) = Some c).
    { apply find_first_match. exists before, after. repeat split; auto.
      - now apply strict_eq_true.
      - intros y Hy. apply strict_eq_false. auto. }
    rewrite Hf. now rewrite Hcl.
Qed.


End MoreProperties.

(** ** The log lines, the earlier revision and the script *)

Section LoggedProperties.
Variable W : Type.

(** [isUSBankTransfer] always returns. *)
Lemma isUSBankTransfer_error_free (stripe : Client W) (chargeId : string) (w : W) :
  exists b, result (isUSBankTransfer stripe chargeId) w = Returned b.
Proof. unfold_run. split_run; eexists; reflexivity. Qed.

(** The log lines of [isUSBankTransfer] only add to the console. *)
Lemma Logged_isUSBankTransfer_erase (this : Logged.StripeHelper W)
    (chargeId : string) (w : W) (out : Console) (h : list Event) :
  let base := isUSBankTransfer (Logged.stripe this) chargeId (w, h) in
  exists new,
    Logged.isUSBankTransfer this chargeId ((w, out), h)
    = (fst base, ((fst (snd base), out ++ new), snd (snd base)))
    /\ (Logged.debug this = false -> new = []).
Proof.
  destruct this as [stripe [|]]; unfold_logged; split_run; flatten_appends.
  all: first
    [ solve [ eexists; split; [reflexivity | intros E; congruence] ]
    | solve [ exists []; rewrite app_nil_r; split; reflexivity ] ].
Qed.

(** X8. The [debug] flag changes neither the answer of [isUSBankTransfer] nor
    its network calls; when it is off nothing is printed. *)
Theorem debug_keeps_isUSBankTransfer (this : Logged.StripeHelper W)
    (chargeId : string) (w : W) :
  result (Logged.isUSBankTransfer this chargeId) (w, [])
    = result (isUSBankTransfer (Logged.stripe this) chargeId) w
  /\ history (Logged.isUSBankTransfer this chargeId) (w, [])
     = history (isUSBankTransfer (Logged.stripe this) chargeId) w
  /\ (Logged.debug this = false ->
      printed (Logged.isUSBankTransfer this chargeId) w = []).
Proof.
  destruct (Logged_isUSBankTransfer_erase this chargeId w [] []) as (new & E & Hoff).
  unfold result, history, printed, Console in *. rewrite E. cbn [fst snd app].
  repeat split. exact Hoff.
Qed.

(** X9. The [debug] flag does not change the answer of [isPiUsBankTransfer],
    which with or without it makes no call; the method prints at most one
    line, and none when the flag is off. *)
Theorem debug_keeps_isPiUsBankTransfer (this : Logged.StripeHelper W)
    (paymentIntent : PaymentIntent.t) (w : W) (out : Console) (h : list Event) :
  exists b new,
    isPiUsBankTransfer paymentIntent (w, h) = (Returned b, (w, h))
    /\ Logged.isPiUsBankTransfer this paymentIntent ((w, out), h)
       = (Returned b, ((w, out ++ new), h))
    /\ length new <= 1
    /\ (Logged.debug this = false -> new = []).
Proof.
  destruct this as [stripe [|]]; unfold_logged; split_run.
  all: first
    [ solve [ do 2 eexists; split; [reflexivity|]; split; [reflexivity|];
              split; [cbn; repeat constructor | intros E; congruence] ]
    | solve [ eexists; exists []; rewrite app_nil_r;
              split; [reflexivity|]; split; [reflexivity|];
              split; [cbn; repeat constructor | intros E; reflexivity] ] ].
Qed.

(** X10. The [debug] flag changes neither the result of [getCustomersByEmail]
    nor its one call; when it is off nothing is printed. *)
Theorem debug_keeps_getCustomersByEmail (this : Logged.StripeHelper W)
    (email : string) (w : W) :
  result (Logged.getCustomersByEmail this email) (w, [])
    = result (getCustomersByEmail (Logged.stripe this) email) w
  /\ history (Logged.getCustomersByEmail this email) (w, [])
     = history (getCustomersByEmail (Logged.stripe this) email) w
  /\ (Logged.debug this = false ->
      printed (Logged.getCustomersByEmail this email) w = []).
Proof.
  destruct this as [stripe [|]]; unfold_logged; split_run;
    repeat split; intros E; discriminate E.
Qed.

(** X11. With [debug] on, a rejected call of [isUSBankTransfer] is not lost:
    the last line printed carries the message of its error. *)
Theorem isUSBankTransfer_logs_rejection (this : Logged.StripeHelper W)
    (chargeId : string) (w : W) (ev : Event) (e : Error) :
  Logged.debug this = true ->
  In ev (history (Logged.isUSBankTransfer this chargeId) (w, [])) ->
  rejection ev = Some e ->
  last (printed (Logged.isUSBankTransfer this chargeId) w) []
  = [LogStr ("::isUSBankTransfer::error retrieving pi with id " ++ chargeId
             ++ "; error was: " ++ message e)%string].
Proof.
  destruct this as [stripe d]. cbn [Logged.debug]. intros ->.
  unfold_logged. split_run; cbn [In last app]; intros Hin Hrej.
  all: repeat match goal with
              | H : _ \/ _ |- _ => destruct H
              | H : False |- _ => destruct H
              end; subst; cbn in Hrej; try discriminate Hrej.
  all: injection Hrej as <-; reflexivity.
Qed.

(** X12. [new StripeHelper()] fails, with the message naming the variable,
    exactly when [STRIPE_API_KEY] is not set or empty; otherwise the helper
    holds the client made for that key, and its [debug] flag is on exactly
    when [DEBUG] is the string ["true"]. *)
Theorem constructor_requires_api_key (requireStripe : string -> Client W)
    (env : Env) :
  match env "STRIPE_API_KEY" with
  | None | Some EmptyString =>
      Logged.constructor requireStripe env
      = Thrown (mkError "Missing env var: STRIPE_API_KEY")
  | Some key =>
      exists d,
        Logged.constructor requireStripe env
        = Returned (Logged.mk W (requireStripe key) d)
        /\ (d = true <-> env "DEBUG" = Some "true")
  end.
Proof.
  unfold Logged.constructor, process_env.
  destruct (env "STRIPE_API_KEY") as [[|a key]|]; cbn; try reflexivity.
  eexists. split; [reflexivity|].
  destruct (env "DEBUG") as [v|]; cbn; [|split; discriminate].
  rewrite String.eqb_eq. split; congruence.
Qed.

(** X13. The script [run]: without a usable [STRIPE_API_KEY] it ends with the
    error of the constructor, calls nothing and prints nothing. *)
Theorem run_without_key_fails (requireStripe : string -> Client W)
    (env : Env) (st : St (W * Console)) :
  truthy (process_env env "STRIPE_API_KEY") = false ->
  Logged.run requireStripe env st
  = (Thrown (mkError "Missing env var: STRIPE_API_KEY"), st).
Proof.
  intros H. unfold Logged.run, Logged.constructor, bind, throw. now rewrite H.
Qed.

(** X14. The script [run], with a key: it classifies [TEST_PI], or ["test-pi"]
    when that is unset or empty, makes the calls of [isUSBankTransfer] on the
    client of the key, and its last line is the answer.  For the default
    identifier no call is made and the answer printed is [false]. *)
Theorem run_prints_classification (requireStripe : string -> Client W)
    (env : Env) (key : string) (w : W) :
  env "STRIPE_API_KEY" = Some key -> key <> EmptyString ->
  let chargeId := match env "TEST_PI" with
                  | None | Some EmptyString => "test-pi"
                  | Some id => id
                  end in
  exists b,
    result (isUSBankTransfer (requireStripe key) chargeId) w = Returned b
    /\ result (Logged.run requireStripe env) (w, []) = Returned tt
    /\ history (Logged.run requireStripe env) (w, [])
       = history (isUSBankTransfer (requireStripe key) chargeId) w
    /\ last (printed (Logged.run requireStripe env) w) [] = [LogBool b]
    /\ (chargeId = "test-pi" ->
        b = false /\ history (Logged.run requireStripe env) (w, []) = []).
Proof.
  intros Hkey Hne chargeId.
  assert (Hid : (if truthy (process_env env "TEST_PI")
                 then template (process_env env "TEST_PI") else "test-pi")
                = chargeId).
  { unfold chargeId, process_env.
    destruct (env "TEST_PI") as [[|a id]|]; reflexivity. }
  clearbody chargeId.
  assert (Hc : Logged.constructor requireStripe env
               = Returned (Logged.mk W (requireStripe key)
                             (strict_eq (process_env env "DEBUG") (str "true")))).
  { unfold Logged.constructor, process_env. rewrite Hkey.
    destruct key; [contradiction|reflexivity]. }
  destruct (isUSBankTransfer_error_free (requireStripe key) chargeId w) as [b Hb].
  exists b. split; [exact Hb|].
  destruct (Logged_isUSBankTransfer_erase
              (Logged.mk W (requireStripe key)
                 (strict_eq (process_env env "DEBUG") (str "true")))
              chargeId w [] []) as (new & E & _).
  cbn [Logged.stripe] in E. unfold result in Hb.
  unfold result, history, printed, Logged.run, Console in *.
  rewrite Hc, Hid. unfold bind, ret, console_log. cbn [fst snd].
  rewrite E, Hb. cbn [fst snd app].
  split; [reflexivity|]. split; [reflexivity|]. split.
  - now rewrite last_last.
  - intros ->. cbn in Hb. split; [congruence | reflexivity].
Qed.


(** X16. The static [isPiUsBankTransfer] of the earlier revision and the
    current method give the same answer on every payment intent; the earlier
    one prints at most one line. *)
Theorem rev0_isPiUsBankTransfer_agrees (paymentIntent : PaymentIntent.t)
    (w : W) (out : Console) (h : list Event) :
  exists b new,
    isPiUsBankTransfer paymentIntent (w, h) = (Returned b, (w, h))
    /\ Rev0.isPiUsBankTransfer paymentIntent ((w, out), h)
       = (Returned b, ((w, out ++ new), h))
    /\ length new <= 1.
Proof.
  unfold_logged. split_run.
  all: first
    [ solve [ do 2 eexists; split; [reflexivity|]; split; [reflexivity|];
              cbn; repeat constructor ]
    | solve [ eexists; exists []; rewrite app_nil_r;
              split; [reflexivity|]; split; [reflexivity|];
              cbn; repeat constructor ] ].
Qed.

End LoggedProperties.

(** ** Concrete runs of the further properties *)

(** The first entry with the id of the latest charge decides. *)
Example scenario_duplicate_ids :
  isPiUsBankTransfer pi_dup (0, []) = (Returned false, (0, []))
  /\ isPiUsBankTransfer pi_two (0, []) = (Returned true, (0, [])).
Proof. split; reflexivity. Qed.

(** The script with [DEBUG=true] and [TEST_PI=py_1]: three calls, five
    log lines and the answer. *)
Example scenario_run_debug :
  Logged.run sampleRequire debugEnv ((0, []), [])
  = (Returned tt,
     ((3, [[LogStr "::isUSBankTransfer::checking charge id: py_1 to see if it is a US Bank transfer"];
           [LogStr "::isUSBankTransfer::checking whether pi_456 is a us bank transfer"];
           [LogStr "::isUSBankTransfer::retrieving latest_charge: ch_2"];
           [LogStr "latestCharge.payment_method_details:"; LogDetails cardDetails];
           [LogBool false]]),
      [ChargesRetrieve (str "py_1") (Resolved (Some py_1));
       PaymentIntentsRetrieve (str "pi_456") (Resolved (Some pi_456));
       ChargesRetrieve (str "ch_2") (Resolved (Some ch_2))])).
Proof. reflexivity. Qed.

(** X1 at ["py_1"]: the bound of three calls is reached. *)
Lemma isUSBankTransfer_call_bound_witness :
  length (history (isUSBankTransfer sampleStripe "py_1") 0) = 3
  /\ length (history (isUSBankTransfer sampleStripe "py_1") 0) <= 3.
Proof.
  split; [reflexivity|].
  apply (isUSBankTransfer_call_bound nat sampleStripe "py_1" 0).
Defined.

(** X2 at ["pi_123"], whose latest charge is embedded. *)
Lemma isUSBankTransfer_true_has_evidence_witness :
  result (isUSBankTransfer sampleStripe "pi_123") 0 = Returned true
  /\ exists pre d pi post c,
       history (isUSBankTransfer sampleStripe "pi_123") 0
         = pre ++ PaymentIntentsRetrieve d (Resolved (Some pi)) :: post
       /\ classify (Some c) = true
       /\ ((findLatest (PaymentIntent.charges pi) (PaymentIntent.latest_charge pi)
              = Some c /\ post = [])
           \/ (findLatest (PaymentIntent.charges pi) (PaymentIntent.latest_charge pi)
                 = None
               /\ post = [ChargesRetrieve (PaymentIntent.latest_charge pi)
                            (Resolved (Some c))])).
Proof.
  split; [reflexivity|].
  apply (isUSBankTransfer_true_has_evidence nat sampleStripe "pi_123" 0).
  reflexivity.
Defined.

(** X3 at a client that resolves every call to nothing. *)
Lemma isUSBankTransfer_nothing_yields_false_witness :
  existsb resolvedNothing (history (isUSBankTransfer emptyStripe "pi_1") 0) = true
  /\ result (isUSBankTransfer emptyStripe "pi_1") 0 = Returned false.
Proof.
  split; [reflexivity|].
  apply (isUSBankTransfer_nothing_yields_false nat emptyStripe "pi_1" 0).
  reflexivity.
Defined.

(** X4 at ["py_1"], whose charge references [pi_456]. *)
Lemma isUSBankTransfer_charge_then_intent_witness :
  charges_retrieve sampleStripe (str "py_1") 0 = (Resolved (Some py_1), 1)
  /\ isUSBankTransfer sampleStripe "py_1" (0, [])
     = isUSBankTransfer sampleStripe "pi_456"
         (1, [] ++ [ChargesRetrieve (str "py_1") (Resolved (Some py_1))]).
Proof.
  split; [reflexivity|].
  apply (isUSBankTransfer_charge_then_intent nat sampleStripe "py_1" "pi_456"
           0 1 [] py_1); reflexivity.
Defined.

(** X5 at [pi_123]. *)
Lemma isUSBankTransfer_agrees_with_isPiUsBankTransfer_witness :
  paymentIntents_retrieve sampleStripe (str "pi_123") 0 = (Resolved (Some pi_123), 1)
  /\ exists b,
       isPiUsBankTransfer pi_123 (0, []) = (Returned b, (0, []))
       /\ isUSBankTransfer sampleStripe "pi_123" (0, [])
          = (Returned b,
             (1, [] ++ [PaymentIntentsRetrieve (str "pi_123")
                          (Resolved (Some pi_123))])).
Proof.
  split; [reflexivity|].
  apply (isUSBankTransfer_agrees_with_isPiUsBankTransfer nat sampleStripe
           "pi_123" pi_123 ch_1 0 1 [] (0, [])); reflexivity.
Defined.

(** X6 at [pi_two]: the latest charge is the second entry. *)
Lemma isPiUsBankTransfer_true_iff_witness :
  isPiUsBankTransfer pi_two (0, []) = (Returned true, (0, [])).
Proof.
  apply (isPiUsBankTransfer_true_iff nat pi_two (0, [])). split.
  - exists "pi_two". split; reflexivity.
  - exists (ChargeList.mk [ch_2; ch_1]), [ch_2], ch_1, [].
    repeat split.
    intros x [<-|[]]. discriminate.
Defined.

(** X11 at a client that rejects every call. *)
Lemma isUSBankTransfer_logs_rejection_witness :
  In (PaymentIntentsRetrieve (str "pi_123")
        (Rejected (mkError "No such payment_intent")))
     (history (Logged.isUSBankTransfer brokenHelper "pi_123") (0, []))
  /\ last (printed (Logged.isUSBankTransfer brokenHelper "pi_123") 0) []
     = [LogStr "::isUSBankTransfer::error retrieving pi with id pi_123; error was: No such payment_intent"].
Proof.
  split; [now left|].
  apply (isUSBankTransfer_logs_rejection nat brokenHelper "pi_123" 0
           (PaymentIntentsRetrieve (str "pi_123")
              (Rejected (mkError "No such payment_intent")))
           (mkError "No such payment_intent")).
  - reflexivity.
  - now left.
  - reflexivity.
Defined.

(** X12 without a key, and with [DEBUG] in upper case. *)
Lemma constructor_requires_api_key_witness :
  Logged.constructor sampleRequire emptyEnv
    = Thrown (mkError "Missing env var: STRIPE_API_KEY")
  /\ exists d,
       Logged.constructor sampleRequire upperDebugEnv
       = Returned (Logged.mk nat (sampleRequire "sk_test_1") d)
       /\ (d = true <-> upperDebugEnv "DEBUG" = Some "true").
Proof.
  split.
  - apply (constructor_requires_api_key nat sampleRequire emptyEnv).
  - apply (constructor_requires_api_key nat sampleRequire upperDebugEnv).
Defined.

(** X13 at the empty environment. *)
Lemma run_without_key_fails_witness :
  truthy (process_env emptyEnv "STRIPE_API_KEY") = false
  /\ Logged.run sampleRequire emptyEnv ((0, []), [])
     = (Thrown (mkError "Missing env var: STRIPE_API_KEY"), ((0, []), [])).
Proof.
  split; [reflexivity|].
  apply (run_without_key_fails nat sampleRequire emptyEnv ((0, []), [])).
  reflexivity.
Defined.

(** X14 with a key and without [TEST_PI]. *)
Lemma run_prints_classification_witness :
  keyOnlyEnv "STRIPE_API_KEY" = Some "sk_test_1"
  /\ exists b,
       result (isUSBankTransfer (sampleRequire "sk_test_1") "test-pi") 0 = Returned b
       /\ result (Logged.run sampleRequire keyOnlyEnv) (0, []) = Returned tt
       /\ history (Logged.run sampleRequire keyOnlyEnv) (0, [])
          = history (isUSBankTransfer (sampleRequire "sk_test_1") "test-pi") 0
       /\ last (printed (Logged.run sampleRequire keyOnlyEnv) 0) [] = [LogBool b]
       /\ ("test-pi" = "test-pi" ->
           b = false /\ history (Logged.run sampleRequire keyOnlyEnv) (0, []) = []).
Proof.
  split; [reflexivity|].
  apply (run_prints_classification nat sampleRequire keyOnlyEnv "sk_test_1" 0).
  - reflexivity.
  - discriminate.
Defined.

